(** * updateWebsiteMaster: the update-and-notify client

    A shallow embedding of [src/utils/updateWebsiteMaster.ts]: the two
    exported asynchronous functions [updateWebsiteMaster] and
    [updateWebsiteMasterFromFile], the JavaScript values they handle, and the
    host facilities they call ([fetch], [Response.json], [JSON.parse],
    [JSON.stringify], [fs.readFile], [console.error], [window],
    [process.env]).

    An [async] function is modelled by the computation that settles its
    promise: a computation that returns [r] is a promise fulfilled with
    [r], a computation that throws [e] is a promise rejected with [e]. *)

From Stdlib Require Import String Ascii List Bool Arith NArith Lia PrimFloat DecimalString.
Import ListNotations.
Local Open Scope string_scope.

(** ** JavaScript values *)

(** The data values the code handles: what [JSON.parse] builds ([null],
    booleans, numbers, strings, arrays, objects) and [undefined], which a
    property read yields for a missing key.  A number is an IEEE double.
    An object is the list of its own properties, one binding per key. *)
#[warnings="-register-all"]
Inductive value : Type :=
  | VUndefined
  | VNull
  | VBool (b : bool)
  | VNum (n : float)
  | VStr (s : string)
  | VArr (items : list value)
  | VObj (props : list (string * value)).

(** ECMAScript ToBoolean: [undefined], [null], [false], [+0], [-0], [NaN]
    and the empty string are falsy, every other value is truthy. *)
Definition truthy (v : value) : bool :=
  match v with
  | VUndefined | VNull => false
  | VBool b => b
  | VNum n => negb (PrimFloat.is_zero n || PrimFloat.is_nan n)
  | VStr s => negb (String.eqb s "")
  | VArr _ | VObj _ => true
  end.

(** [a || b] on values: [a] when it is truthy, [b] otherwise. *)
Definition js_or (a b : value) : value := if truthy a then a else b.

(** The first binding of a key among an object's own properties. *)
Fixpoint own_property (k : string) (props : list (string * value)) : option value :=
  match props with
  | [] => None
  | (k', v) :: rest => if String.eqb k k' then Some v else own_property k rest
  end.

(** ** Thrown values, completions and effects *)

(** What a [catch] clause can receive: an object for which
    [instanceof Error] holds (with its [name] and [message]), or any other
    thrown value. *)
Inductive thrown : Type :=
  | ErrorInstance (name message : string)
  | ThrownValue (v : value).

(** How an evaluation ends: with a value, or abruptly with a thrown value
    (for an awaited promise: fulfilled or rejected). *)
Inductive completion (A : Type) : Type :=
  | Returned (a : A)
  | Threw (e : thrown).
Arguments Returned {A} a.
Arguments Threw {A} e.

(** The request [fetch] is called with: the URL and the [init] object. *)
Record Request : Type := {
  url : string;
  method : string;
  headers : list (string * string);
  body : string
}.

(** What the code observes of a [Response]: the status line and the body
    text, whose reading can itself fail. *)
Record Response : Type := {
  status : N;
  statusText : string;
  text : completion string
}.

(** [Response.ok] (Fetch standard): the status is in the range 200 to 299. *)
Definition ok (r : Response) : bool :=
  (200 <=? status r)%N && (status r <=? 299)%N.

Record Location : Type := { origin : string }.
Record Window : Type := { location : option Location }.
Record FsPromises : Type := { readFile : string -> completion string }.

(** The host the code runs in.  [window] is [None] where
    [typeof window] is ["undefined"]; [NEXT_PUBLIC_APP_URL] is
    [process.env.NEXT_PUBLIC_APP_URL], [None] when the variable is not set
    (the read itself succeeds: Next.js inlines it in the browser, and
    [process.env] exists on the server); [network] is what a [fetch] of a
    request settles to; [import_fs] is what [import('fs/promises')] settles
    to; [TypeError_message v k] is the engine's message for reading
    property [k] of [v] when [v] is [null] or [undefined]. *)
Record Host : Type := {
  window : option Window;
  NEXT_PUBLIC_APP_URL : option string;
  network : Request -> completion Response;
  JSON_parse : string -> completion value;
  JSON_stringify : value -> string;
  import_fs : completion FsPromises;
  TypeError_message : value -> string -> string
}.

(** The observable effects of a run: the requests handed to [fetch] and
    the calls of [console.error], both oldest first. *)
Record Effects : Type := {
  fetch_calls : list Request;
  console_errors : list (string * thrown)
}.

Definition no_effects : Effects := {| fetch_calls := []; console_errors := [] |}.

(** Computations that have effects and may throw.  Effects made before a
    throw stay made. *)
Definition Js (A : Type) : Type := Effects -> completion A * Effects.

Definition ret {A} (a : A) : Js A := fun s => (Returned a, s).

Definition throw {A} (e : thrown) : Js A := fun s => (Threw e, s).

Definition bind {A B} (c : Js A) (k : A -> Js B) : Js B :=
  fun s =>
    match c s with
    | (Returned a, s') => k a s'
    | (Threw e, s') => (Threw e, s')
    end.

Definition lift {A} (c : completion A) : Js A := fun s => (c, s).

(** [try { body } catch (e) { handler e }] *)
Definition try_catch {A} (body : Js A) (handler : thrown -> Js A) : Js A :=
  fun s =>
    match body s with
    | (Returned a, s') => (Returned a, s')
    | (Threw e, s') => handler e s'
    end.

Declare Scope js_scope.
Delimit Scope js_scope with js.
Notation "x <- c ;; k" := (bind c (fun x => k))
  (at level 100, c at next level, right associativity) : js_scope.
Notation "c ;;; k" := (bind c (fun _ => k))
  (at level 100, right associativity) : js_scope.
Local Open Scope js_scope.

(** ** Host operations *)

(** [v.k] where [v] is neither [null] nor [undefined], for the property
    names this file reads ([error], [message], [websiteId], [website],
    [_id]), none of which a prototype defines: the own property of an
    object, [undefined] where there is none and on every other value. *)
Definition field (v : value) (k : string) : value :=
  match v with
  | VObj props => match own_property k props with Some x => x | None => VUndefined end
  | _ => VUndefined
  end.

(** [v.k]: a [TypeError] when [v] is [null] or [undefined]. *)
Definition get (h : Host) (v : value) (k : string) : Js value :=
  match v with
  | VUndefined | VNull => throw (ErrorInstance "TypeError" (TypeError_message h v k))
  | _ => ret (field v k)
  end.

(** [fetch(url, init)]: the request is recorded, the promise settles as
    the network decides. *)
Definition fetch (h : Host) (req : Request) : Js Response :=
  fun s =>
    (network h req,
     {| fetch_calls := fetch_calls s ++ [req]; console_errors := console_errors s |}).

(** [response.json()] (Fetch standard): read the body, then parse it. *)
Definition Response_json (h : Host) (r : Response) : Js value :=
  match text r with
  | Returned t => lift (JSON_parse h t)
  | Threw e => throw e
  end.

(** [console.error(label, e)] *)
Definition console_error (label : string) (e : thrown) : Js unit :=
  fun s =>
    (Returned tt,
     {| fetch_calls := fetch_calls s; console_errors := console_errors s ++ [(label, e)] |}).

(** Number-to-string of a status code, an unsigned integer. *)
Definition Number_toString (n : N) : string := NilZero.string_of_uint (N.to_uint n).

(** [s.replace(/\/$/, '')]: without the [m] flag [$] matches at the end of
    the input only, so the last character is dropped when it is a slash. *)
Fixpoint replace_trailing_slash (s : string) : string :=
  match s with
  | EmptyString => EmptyString
  | String c EmptyString => if Ascii.eqb c "/" then EmptyString else s
  | String c rest => String c (replace_trailing_slash rest)
  end.

(** ** The module [updateWebsiteMaster.ts] *)

(** [interface UpdateWebsiteMasterOptions]; [None] is an absent field. *)
Record UpdateWebsiteMasterOptions : Type := {
  sendEmailNotification : option bool;
  apiUrl : option string
}.

(** [interface UpdateWebsiteMasterResult]: the object a call returns.
    [None] is a key the object literal does not have; [Some VUndefined] is
    a key that is there and holds [undefined]. *)
Record UpdateWebsiteMasterResult : Type := {
  success : bool;
  message : option value;
  websiteId : option value;
  website : option value;
  error : option value
}.

Definition update_website_path : string := "/api/userActions/update-website".

(** Lines 68-78: the [if]/[else if] chain that picks the endpoint. *)
Definition endpoint_for (h : Host) (apiUrl : option string) : string :=
  let endpoint := update_website_path in
  let from_env :=
    match NEXT_PUBLIC_APP_URL h with
    | Some base =>
        if truthy (VStr base) then base ++ update_website_path else endpoint
    | None => endpoint
    end in
  let from_window :=
    match window h with
    | Some w =>
        match location w with
        | Some loc => origin loc ++ update_website_path
        | None => from_env
        end
    | None => from_env
    end in
  match apiUrl with
  | Some u =>
      if truthy (VStr u)
      then replace_trailing_slash u ++ update_website_path
      else from_window
  | None => from_window
  end.

(** Lines 81-91: the request handed to [fetch]. *)
Definition update_request (h : Host) (endpoint : string)
    (websiteId updates : value) (sendEmailNotification : bool) : Request :=
  {| url := endpoint;
     method := "PUT";
     headers := [("Content-Type", "application/json")];
     body := JSON_stringify h
               (VObj [("websiteId", websiteId);
                      ("updates", updates);
                      ("sendEmailNotification", VBool sendEmailNotification)]) |}.

(** [updateWebsiteMaster(websiteId, updates, options = {})].  [options] is
    [None] when the caller leaves the argument out.  [websiteId] and
    [updates] are values: [updateWebsiteMasterFromFile] passes what it
    parsed. *)
Definition updateWebsiteMaster (h : Host) (websiteId updates : value)
    (options : option UpdateWebsiteMasterOptions) : Js UpdateWebsiteMasterResult :=
  let options :=
    match options with
    | Some o => o
    | None => {| sendEmailNotification := None; apiUrl := None |}
    end in
  let sendEmailNotification :=
    match sendEmailNotification options with Some b => b | None => true end in
  let apiUrl := apiUrl options in
  let endpoint := endpoint_for h apiUrl in
  try_catch
    (response <- fetch h (update_request h endpoint websiteId updates sendEmailNotification) ;;
     data <- Response_json h response ;;
     if negb (ok response) then
       data_error <- get h data "error" ;;
       ret {| success := false;
              message := None;
              websiteId := Some websiteId;
              website := None;
              error := Some (js_or data_error
                               (VStr ("HTTP " ++ Number_toString (status response)
                                      ++ ": " ++ statusText response))) |}
     else
       data_message <- get h data "message" ;;
       data_websiteId <- get h data "websiteId" ;;
       data_website <- get h data "website" ;;
       ret {| success := true;
              message := Some (js_or data_message (VStr "Website updated successfully"));
              websiteId := Some data_websiteId;
              website := Some data_website;
              error := None |})
    (fun error =>
       console_error "❌ Error updating websiteMaster:" error ;;;
       ret {| success := false;
              message := None;
              websiteId := Some websiteId;
              website := None;
              error := Some (match error with
                             | ErrorInstance _ m => VStr m
                             | ThrownValue _ => VStr "Unknown error occurred"
                             end) |}).

Definition missing_id_error : string :=
  "websiteData.json does not contain _id field. Make sure the website has been saved to the database first.".

(** [updateWebsiteMasterFromFile(websiteDataPath = './src/data/websiteData.json', options = {})] *)
Definition updateWebsiteMasterFromFile (h : Host) (websiteDataPath : option string)
    (options : option UpdateWebsiteMasterOptions) : Js UpdateWebsiteMasterResult :=
  let websiteDataPath :=
    match websiteDataPath with Some p => p | None => "./src/data/websiteData.json" end in
  let options :=
    match options with
    | Some o => o
    | None => {| sendEmailNotification := None; apiUrl := None |}
    end in
  try_catch
    (fs <- lift (import_fs h) ;;
     websiteDataContent <- lift (readFile fs websiteDataPath) ;;
     websiteMaster <- lift (JSON_parse h websiteDataContent) ;;
     websiteMaster_id <- get h websiteMaster "_id" ;;
     if negb (truthy websiteMaster_id) then
       ret {| success := false;
              message := None;
              websiteId := None;
              website := None;
              error := Some (VStr missing_id_error) |}
     else
       updateWebsiteMaster h websiteMaster_id websiteMaster (Some options))
    (fun error =>
       console_error "❌ Error reading websiteData.json:" error ;;;
       ret {| success := false;
              message := None;
              websiteId := None;
              website := None;
              error := Some (match error with
                             | ErrorInstance _ m => VStr m
                             | ThrownValue _ => VStr "Failed to read websiteData.json"
                             end) |}).

(** ** What the specification says, in its own words *)

(** The origin of the browsing context, when there is one. *)
Definition current_origin (h : Host) : option string :=
  match window h with
  | Some w => match location w with Some loc => Some (origin loc) | None => None end
  | None => None
  end.

(** "With any trailing slash stripped": a string that ends in a slash loses
    that one character, any other string is kept. *)
Definition strip_trailing_slash (u : string) : string :=
  let n := String.length u in
  match String.get (n - 1) u with
  | Some c => if Ascii.eqb c "/" then String.substring 0 (n - 1) u else u
  | None => u
  end.

(** Endpoint resolution as the specification words it: the override when
    given, else the current origin when there is one, else the configured
    base URL when set, else the bare path. *)
Definition spec_endpoint (h : Host) (override : option string) : string :=
  match override with
  | Some u => strip_trailing_slash u ++ update_website_path
  | None =>
      match current_origin h with
      | Some o => o ++ update_website_path
      | None =>
          match NEXT_PUBLIC_APP_URL h with
          | Some base => base ++ update_website_path
          | None => update_website_path
          end
      end
  end.

(** An override that is given and is not the empty string. *)
Definition nonempty_override (override : option string) : option string :=
  match override with
  | Some u => if String.eqb u "" then None else Some u
  | None => None
  end.

(** The two result variants. *)
Definition is_Success (r : UpdateWebsiteMasterResult) : Prop :=
  success r = true /\ error r = None.

Definition is_Failure (r : UpdateWebsiteMasterResult) : Prop :=
  success r = false /\ exists e, error r = Some e /\ e <> VUndefined.

(** The parsed value is an object with an own property [k]. *)
Definition has_field (v : value) (k : string) : bool :=
  match v with
  | VObj props => match own_property k props with Some _ => true | None => false end
  | _ => false
  end.

(** [null] and [undefined], the values no property can be read of. *)
Definition nullish (v : value) : bool :=
  match v with
  | VUndefined | VNull => true
  | _ => false
  end.

(** [needle] occurs in [s] ([String.prototype.includes]). *)
Fixpoint includes (needle s : string) : bool :=
  String.prefix needle s ||
  match s with
  | EmptyString => false
  | String _ rest => includes needle rest
  end.

(** The last character of [u] is a slash. *)
Definition ends_with_slash (u : string) : bool :=
  match String.get (String.length u - 1) u with
  | Some c => Ascii.eqb c "/"
  | None => false
  end.

(** ** Derived views of a call *)

(** The request a call of [updateWebsiteMaster] builds. *)
Definition request_of (h : Host) (websiteId updates : value)
    (options : option UpdateWebsiteMasterOptions) : Request :=
  update_request h
    (endpoint_for h (match options with Some o => apiUrl o | None => None end))
    websiteId updates
    (match options with
     | Some o => match sendEmailNotification o with Some b => b | None => true end
     | None => true
     end).

(** The effects after [req] went out. *)
Definition sent (req : Request) (s : Effects) : Effects :=
  {| fetch_calls := fetch_calls s ++ [req]; console_errors := console_errors s |}.

(** The effects after [console.error(label, e)]. *)
Definition logged (label : string) (e : thrown) (s : Effects) : Effects :=
  {| fetch_calls := fetch_calls s; console_errors := console_errors s ++ [(label, e)] |}.

(** The text a [catch] clause reports for [e]. *)
Definition caught_message (e : thrown) (fallback : string) : string :=
  match e with
  | ErrorInstance _ m => m
  | ThrownValue _ => fallback
  end.

(** The status line as the failure branch prints it. *)
Definition status_line (r : Response) : string :=
  "HTTP " ++ Number_toString (status r) ++ ": " ++ statusText r.

(** ** Proof automation *)

Ltac js_unfold :=
  unfold updateWebsiteMaster, updateWebsiteMasterFromFile, request_of,
    Response_json, try_catch, bind, fetch, console_error, lift, throw, ret, get,
    sent, logged, caught_message, status_line, js_or in *.

(** ** Scripted hosts for the concrete scenarios *)

(** The double quote, for writing JSON texts. *)
Definition dquote : string := String (Ascii.ascii_of_nat 34) EmptyString.

Definition quoted (s : string) : string := dquote ++ s ++ dquote.

Fixpoint lookup_text (t : string) (table : list (string * value)) : option value :=
  match table with
  | [] => None
  | (t', v) :: rest => if String.eqb t t' then Some v else lookup_text t rest
  end.

(** A test double of the host, in the way a test mocks [fetch] and [fs]:
    [net] is what every [fetch] settles to, [file] what every [readFile]
    settles to, [parses] the JSON texts of the scenario with the values
    they parse to, [payload] the text [JSON.stringify] gives for the one
    request body of the scenario.  The messages are V8's. *)
Definition scripted (win : option Window) (env : option string)
    (net : completion Response) (file : completion string)
    (parses : list (string * value)) (payload : string) : Host :=
  {| window := win;
     NEXT_PUBLIC_APP_URL := env;
     network := fun _ => net;
     JSON_parse := fun t =>
       if String.eqb t "" then Threw (ErrorInstance "SyntaxError" "Unexpected end of JSON input")
       else match lookup_text t parses with
            | Some v => Returned v
            | None => Threw (ErrorInstance "SyntaxError" "Unexpected token")
            end;
     JSON_stringify := fun _ => payload;
     import_fs := Returned {| readFile := fun _ => file |};
     TypeError_message := fun v k =>
       "Cannot read properties of "
       ++ match v with VNull => "null" | _ => "undefined" end
       ++ " (reading '" ++ k ++ "')" |}.

Definition abc123 : value := VStr "abc123".

Definition some_updates : value := VObj [("websiteName", VStr "Updated Name")].

(** [{"websiteId":"abc123","updates":{"websiteName":"Updated Name"},"sendEmailNotification":true}] *)
Definition some_payload : string :=
  "{" ++ quoted "websiteId" ++ ":" ++ quoted "abc123" ++ ","
  ++ quoted "updates" ++ ":{" ++ quoted "websiteName" ++ ":" ++ quoted "Updated Name" ++ "},"
  ++ quoted "sendEmailNotification" ++ ":true}".

Definition browser : option Window :=
  Some {| location := Some {| origin := "https://example.com" |} |}.

(** A server-side host whose network answers with [resp], whose body text
    [t] parses to [data]. *)
Definition answering (resp : Response) (parses : list (string * value)) : Host :=
  scripted None None (Returned resp) (Threw (ErrorInstance "Error" "ENOENT")) parses some_payload.

(** [{"error": "not found"}] *)
Definition not_found_text : string :=
  "{" ++ quoted "error" ++ ": " ++ quoted "not found" ++ "}".

Definition not_found_404 : Response :=
  {| status := 404; statusText := "Not Found"; text := Returned not_found_text |}.

(** [{"error": ""}] *)
Definition blank_error_text : string := "{" ++ quoted "error" ++ ": " ++ quoted "" ++ "}".

Definition blank_error_404 : Response :=
  {| status := 404; statusText := "Not Found"; text := Returned blank_error_text |}.

Definition empty_500 : Response :=
  {| status := 500; statusText := "Internal Server Error"; text := Returned "" |}.

(** [{"message": "ok", "websiteId": "xyz", "website": {"a":1}}] *)
Definition ok_text : string :=
  "{" ++ quoted "message" ++ ": " ++ quoted "ok" ++ ", "
  ++ quoted "websiteId" ++ ": " ++ quoted "xyz" ++ ", "
  ++ quoted "website" ++ ": {" ++ quoted "a" ++ ":1}}".

Definition ok_data : value :=
  VObj [("message", VStr "ok"); ("websiteId", VStr "xyz");
        ("website", VObj [("a", VNum 1%float)])].

Definition ok_200 : Response :=
  {| status := 200; statusText := "OK"; text := Returned ok_text |}.

Definition null_200 : Response :=
  {| status := 200; statusText := "OK"; text := Returned "null" |}.

(** A host whose file holds the text [content], which parses to [doc], and
    whose network refuses every connection. *)
Definition with_file (content : string) (doc : value) : Host :=
  scripted None None (Threw (ErrorInstance "TypeError" "fetch failed"))
    (Returned content) [(content, doc)] some_payload.

(** [{"_id": "abc123", "websiteName": "Updated Name"}] *)
Definition saved_text : string :=
  "{" ++ quoted "_id" ++ ": " ++ quoted "abc123" ++ ", "
  ++ quoted "websiteName" ++ ": " ++ quoted "Updated Name" ++ "}".

Definition saved_doc : value :=
  VObj [("_id", VStr "abc123"); ("websiteName", VStr "Updated Name")].

(** [{"websiteName": "Updated Name"}] *)
Definition unsaved_text : string :=
  "{" ++ quoted "websiteName" ++ ": " ++ quoted "Updated Name" ++ "}".

(** [{"_id": "", "websiteName": "Updated Name"}] *)
Definition blank_id_text : string :=
  "{" ++ quoted "_id" ++ ": " ++ quoted "" ++ ", "
  ++ quoted "websiteName" ++ ": " ++ quoted "Updated Name" ++ "}".

Definition blank_id_doc : value :=
  VObj [("_id", VStr ""); ("websiteName", VStr "Updated Name")].

(** ** The ways a call of [updateWebsiteMaster] goes *)

Section Runs.
Variable h : Host.
Variables wid updates : value.
Variable options : option UpdateWebsiteMasterOptions.
Variable s : Effects.

(** [fetch] rejects. *)
Lemma run_fetch_throws (e : thrown) :
  network h (request_of h wid updates options) = Threw e ->
  updateWebsiteMaster h wid updates options s =
    (Returned {| success := false; message := None; websiteId := Some wid;
                 website := None;
                 error := Some (VStr (caught_message e "Unknown error occurred")) |},
     logged "❌ Error updating websiteMaster:" e
       (sent (request_of h wid updates options) s)).
Proof.
  js_unfold; destruct options as [o|]; cbn; intros ->; destruct e; reflexivity.
Qed.

(** [response.json()] rejects: the body cannot be read, or does not parse. *)
Lemma run_json_throws (resp : Response) (e : thrown) :
  network h (request_of h wid updates options) = Returned resp ->
  text resp = Threw e \/ (exists t, text resp = Returned t /\ JSON_parse h t = Threw e) ->
  updateWebsiteMaster h wid updates options s =
    (Returned {| success := false; message := None; websiteId := Some wid;
                 website := None;
                 error := Some (VStr (caught_message e "Unknown error occurred")) |},
     logged "❌ Error updating websiteMaster:" e
       (sent (request_of h wid updates options) s)).
Proof.
  js_unfold; destruct options as [o|]; cbn; intros -> [-> | (t & -> & ->)];
    destruct e; reflexivity.
Qed.

(** The body parses to a value properties can be read of. *)
Lemma run_parsed (resp : Response) (t : string) (data : value) :
  network h (request_of h wid updates options) = Returned resp ->
  text resp = Returned t ->
  JSON_parse h t = Returned data ->
  nullish data = false ->
  updateWebsiteMaster h wid updates options s =
    (Returned
       (if ok resp
        then {| success := true;
                message := Some (if truthy (field data "message")
                                 then field data "message"
                                 else VStr "Website updated successfully");
                websiteId := Some (field data "websiteId");
                website := Some (field data "website");
                error := None |}
        else {| success := false; message := None; websiteId := Some wid;
                website := None;
                error := Some (if truthy (field data "error")
                               then field data "error"
                               else VStr (status_line resp)) |}),
     sent (request_of h wid updates options) s).
Proof.
  js_unfold; destruct options as [o|]; cbn; intros -> -> -> N;
    destruct (ok resp); destruct data; try discriminate N; reflexivity.
Qed.

(** The body parses to [null]: the first property read throws a
    [TypeError], which the [catch] clause reports. *)
Lemma run_parsed_nullish (resp : Response) (t : string) (data : value) :
  network h (request_of h wid updates options) = Returned resp ->
  text resp = Returned t ->
  JSON_parse h t = Returned data ->
  nullish data = true ->
  updateWebsiteMaster h wid updates options s =
    (Returned {| success := false; message := None; websiteId := Some wid;
                 website := None;
                 error := Some (VStr (TypeError_message h data
                                        (if ok resp then "message" else "error"))) |},
     logged "❌ Error updating websiteMaster:"
       (ErrorInstance "TypeError"
          (TypeError_message h data (if ok resp then "message" else "error")))
       (sent (request_of h wid updates options) s)).
Proof.
  js_unfold; destruct options as [o|]; cbn; intros -> -> -> N;
    destruct (ok resp); destruct data; try discriminate N; reflexivity.
Qed.

End Runs.

(** ** The trailing slash *)

Lemma replace_trailing_slash_strips (u : string) :
  replace_trailing_slash u = strip_trailing_slash u.
Proof.
  induction u as [|c r IH]; [reflexivity|].
  destruct r as [|c' r'].
  - cbn. destruct (Ascii.eqb c "/"); reflexivity.
  - change (replace_trailing_slash (String c (String c' r')))
      with (String c (replace_trailing_slash (String c' r'))).
    rewrite IH. unfold strip_trailing_slash.
    cbn [String.length]. cbv zeta.
    replace (S (S (String.length r')) - 1) with (S (String.length r')) by lia.
    replace (S (String.length r') - 1) with (String.length r') by lia.
    change (String.get (S (String.length r')) (String c (String c' r')))
      with (String.get (String.length r') (String c' r')).
    change (substring 0 (S (String.length r')) (String c (String c' r')))
      with (String c (substring 0 (String.length r') (String c' r'))).
    destruct (String.get (String.length r') (String c' r')) as [c0|]; [|reflexivity].
    destruct (Ascii.eqb c0 "/"); reflexivity.
Qed.

Example strips_one_slash :
  replace_trailing_slash "https://app.example.com/" = "https://app.example.com"
  /\ replace_trailing_slash "https://app.example.com//" = "https://app.example.com/"
  /\ replace_trailing_slash "https://app.example.com" = "https://app.example.com"
  /\ replace_trailing_slash "/" = "".
Proof. repeat split; reflexivity. Qed.

(** ** Every call settles *)

Lemma variants_exclusive (r : UpdateWebsiteMasterResult) :
  is_Success r -> is_Failure r -> False.
Proof. intros [S _] [F _]; congruence. Qed.

Lemma VStr_defined (m : string) : VStr m <> VUndefined.
Proof. discriminate. Qed.

Lemma or_defined (v : value) (m : string) :
  (if truthy v then v else VStr m) <> VUndefined.
Proof. destruct v; cbn; try discriminate; destruct (_ : bool); discriminate. Qed.

(** A call of [updateWebsiteMaster] returns a result of one variant, having
    handed exactly one request to [fetch]; a failure echoes the identifier. *)
Lemma updateWebsiteMaster_returns (h : Host) (wid updates : value)
    (options : option UpdateWebsiteMasterOptions) (s : Effects) :
  exists r s',
    updateWebsiteMaster h wid updates options s = (Returned r, s')
    /\ fetch_calls s' = (fetch_calls s ++ [request_of h wid updates options])%list
    /\ (is_Success r \/ (is_Failure r /\ websiteId r = Some wid)).
Proof.
  destruct (network h (request_of h wid updates options)) as [resp|e] eqn:Enet.
  - destruct (text resp) as [t|e] eqn:Etext.
    + destruct (JSON_parse h t) as [data|e] eqn:Eparse.
      * destruct (nullish data) eqn:Enull.
        -- do 2 eexists; split;
             [apply (run_parsed_nullish _ _ _ _ _ _ _ _ Enet Etext Eparse Enull)|].
           split; [reflexivity|]. right. split; [|reflexivity].
           split; [reflexivity|]. eexists; split; [reflexivity|apply VStr_defined].
        -- do 2 eexists; split; [apply (run_parsed _ _ _ _ _ _ _ _ Enet Etext Eparse Enull)|].
           split; [reflexivity|]. destruct (ok resp).
           ++ left. split; reflexivity.
           ++ right. split; [|reflexivity]. split; [reflexivity|].
              eexists; split; [reflexivity|apply or_defined].
      * do 2 eexists; split.
        { apply (run_json_throws _ _ _ _ _ resp e Enet). right. exists t. split; assumption. }
        split; [reflexivity|]. right. split; [|reflexivity].
        split; [reflexivity|]. eexists; split; [reflexivity|apply VStr_defined].
    + do 2 eexists; split.
      { apply (run_json_throws _ _ _ _ _ resp e Enet). left. assumption. }
      split; [reflexivity|]. right. split; [|reflexivity].
      split; [reflexivity|]. eexists; split; [reflexivity|apply VStr_defined].
  - do 2 eexists; split; [apply (run_fetch_throws _ _ _ _ _ e Enet)|].
    split; [reflexivity|]. right. split; [|reflexivity].
    split; [reflexivity|]. eexists; split; [reflexivity|apply VStr_defined].
Qed.

(** A call of [updateWebsiteMasterFromFile] returns a result of one variant. *)
Lemma updateWebsiteMasterFromFile_returns (h : Host) (path : option string)
    (options : option UpdateWebsiteMasterOptions) (s : Effects) :
  exists r s',
    updateWebsiteMasterFromFile h path options s = (Returned r, s')
    /\ (is_Success r \/ is_Failure r).
Proof.
  unfold updateWebsiteMasterFromFile.
  set (p := match path with Some p => p | None => _ end).
  set (o := match options with Some o => o | None => _ end).
  unfold try_catch at 1, bind at 1, lift at 1.
  destruct (import_fs h) as [fs|e].
  2:{ cbn. do 2 eexists; split; [reflexivity|]. right.
      split; [reflexivity|]. eexists; split; [reflexivity|destruct e; discriminate]. }
  unfold bind at 1, lift at 1.
  destruct (readFile fs p) as [content|e].
  2:{ cbn. do 2 eexists; split; [reflexivity|]. right.
      split; [reflexivity|]. eexists; split; [reflexivity|destruct e; discriminate]. }
  unfold bind at 1, lift at 1.
  destruct (JSON_parse h content) as [doc|e].
  2:{ cbn. do 2 eexists; split; [reflexivity|]. right.
      split; [reflexivity|]. eexists; split; [reflexivity|destruct e; discriminate]. }
  unfold bind at 1.
  destruct (nullish doc) eqn:Enull.
  { destruct doc; try discriminate Enull; cbn;
      (do 2 eexists; split; [reflexivity|]; right;
       split; [reflexivity|]; eexists; split; [reflexivity|discriminate]). }
  assert (G : get h doc "_id" s = (Returned (field doc "_id"), s))
    by (destruct doc; try discriminate Enull; reflexivity).
  rewrite G. destruct (truthy (field doc "_id")); cbn [negb].
  - destruct (updateWebsiteMaster_returns h (field doc "_id") doc (Some o) s)
      as (r & s' & E & _ & V).
    rewrite E. exists r, s'. split; [reflexivity|]. tauto.
  - cbn. do 2 eexists; split; [reflexivity|]. right.
    split; [reflexivity|]. eexists; split; [reflexivity|discriminate].
Qed.

(** C1. For every identifier, updates and options, on every host and after
    any earlier effects, [updateWebsiteMaster] returns (its promise is
    fulfilled, never rejected) a result that is exactly one of the two
    variants: success flag true and no [error] key, or success flag false
    and an [error] that is defined.  [updateWebsiteMasterFromFile] returns
    such a result too, for every path and options. *)
Theorem update_returns_exactly_one_variant :
  forall (h : Host) (wid updates : value)
         (options : option UpdateWebsiteMasterOptions) (s : Effects),
    (exists r s',
        updateWebsiteMaster h wid updates options s = (Returned r, s')
        /\ ((is_Success r /\ ~ is_Failure r) \/ (is_Failure r /\ ~ is_Success r)))
    /\ (forall path : option string,
         exists r s',
           updateWebsiteMasterFromFile h path options s = (Returned r, s')
           /\ ((is_Success r /\ ~ is_Failure r) \/ (is_Failure r /\ ~ is_Success r))).
Proof.
  intros h wid updates options s. split.
  - destruct (updateWebsiteMaster_returns h wid updates options s) as (r & s' & E & _ & V).
    exists r, s'. split; [exact E|].
    destruct V as [S | [F _]]; [left | right]; split; try assumption;
      intro X; eapply variants_exclusive; eassumption.
  - intro path.
    destruct (updateWebsiteMasterFromFile_returns h path options s) as (r & s' & E & V).
    exists r, s'. split; [exact E|].
    destruct V as [S | F]; [left | right]; split; try assumption;
      intro X; eapply variants_exclusive; eassumption.
Qed.

(** ** The endpoint *)

Lemma endpoint_for_spec (h : Host) (override : option string) :
  endpoint_for h override = spec_endpoint h (nonempty_override override).
Proof.
  assert (E : (match NEXT_PUBLIC_APP_URL h with
               | Some base => if truthy (VStr base)
                              then base ++ update_website_path else update_website_path
               | None => update_website_path
               end)
              = match NEXT_PUBLIC_APP_URL h with
                | Some base => base ++ update_website_path
                | None => update_website_path
                end).
  { destruct (NEXT_PUBLIC_APP_URL h) as [base|]; [|reflexivity].
    cbn. destruct (String.eqb_spec base ""); [subst|]; reflexivity. }
  unfold endpoint_for, spec_endpoint, nonempty_override, current_origin.
  cbv zeta. rewrite E.
  destruct override as [u|].
  - cbn [truthy]. destruct (String.eqb u ""); cbn [negb].
    + destruct (window h) as [[[loc|]]|]; reflexivity.
    + rewrite replace_trailing_slash_strips. reflexivity.
  - destruct (window h) as [[[loc|]]|]; reflexivity.
Qed.

(** C2 (as amended). Every call of [updateWebsiteMaster] hands [fetch] one
    request, whose URL is resolved by first match: a given, non-empty
    [apiUrl] with one trailing slash stripped and the fixed path appended,
    whatever the browsing context and the configuration; otherwise (no
    [apiUrl], or the empty string) the current origin plus the path when
    there is a browsing context; otherwise the configured base URL plus the
    path when it is set; otherwise the path alone. *)
Theorem endpoint_first_match_wins :
  forall (h : Host) (wid updates : value)
         (options : option UpdateWebsiteMasterOptions) (s : Effects),
  exists req,
    fetch_calls (snd (updateWebsiteMaster h wid updates options s))
      = (fetch_calls s ++ [req])%list
    /\ url req =
         spec_endpoint h
           (nonempty_override (match options with Some o => apiUrl o | None => None end)).
Proof.
  intros h wid updates options s.
  destruct (updateWebsiteMaster_returns h wid updates options s) as (r & s' & E & F & _).
  exists (request_of h wid updates options). rewrite E. split; [exact F|].
  cbn. apply endpoint_for_spec.
Qed.

(** C2, the input on which the claim as worded fails: in a browser at
    [https://example.com], a call with [apiUrl: ""] is given an override,
    yet the request goes to the current origin, not to the override with
    the path appended. *)
Lemma empty_override_is_not_used :
  let h := scripted browser None (Threw (ErrorInstance "TypeError" "Failed to fetch"))
             (Threw (ErrorInstance "Error" "ENOENT")) [] some_payload in
  let options := Some {| sendEmailNotification := None; apiUrl := Some "" |} in
  map url (fetch_calls (snd (updateWebsiteMaster h abc123 some_updates options no_effects)))
    = ["https://example.com/api/userActions/update-website"]
  /\ spec_endpoint h (Some "") = "/api/userActions/update-website"
  /\ map url (fetch_calls (snd (updateWebsiteMaster h abc123 some_updates options no_effects)))
       <> [spec_endpoint h (Some "")].
Proof.
  cbv zeta. split; [reflexivity|]. split; [reflexivity|].
  vm_compute. discriminate.
Qed.

(** ** The request *)

(** C9. Every call of [updateWebsiteMaster] hands [fetch] exactly one
    request: a PUT whose only header is [Content-Type: application/json]
    and whose body is the JSON text of an object with exactly the keys
    [websiteId], [updates] and [sendEmailNotification], holding the
    identifier and the updates passed in and the notification flag.  The
    flag is [true] when the options are left out and when they do not set
    it, and is the caller's value when they do. *)
Theorem request_is_json_put :
  forall (h : Host) (wid updates : value) (s : Effects),
    (forall options : option UpdateWebsiteMasterOptions,
      exists (req : Request) (flag : bool),
        fetch_calls (snd (updateWebsiteMaster h wid updates options s))
          = (fetch_calls s ++ [req])%list
        /\ method req = "PUT"
        /\ headers req = [("Content-Type", "application/json")]
        /\ body req = JSON_stringify h
                        (VObj [("websiteId", wid); ("updates", updates);
                               ("sendEmailNotification", VBool flag)])
        /\ flag = match options with
                  | None => true
                  | Some o => match sendEmailNotification o with
                              | None => true
                              | Some b => b
                              end
                  end)
    /\ (exists req,
          fetch_calls (snd (updateWebsiteMaster h wid updates None s))
            = (fetch_calls s ++ [req])%list
          /\ body req = JSON_stringify h
                          (VObj [("websiteId", wid); ("updates", updates);
                                 ("sendEmailNotification", VBool true)]))
    /\ (forall override : option string,
          exists req,
            fetch_calls (snd (updateWebsiteMaster h wid updates
                                (Some {| sendEmailNotification := None;
                                         apiUrl := override |}) s))
              = (fetch_calls s ++ [req])%list
            /\ body req = JSON_stringify h
                            (VObj [("websiteId", wid); ("updates", updates);
                                   ("sendEmailNotification", VBool true)])).
Proof.
  intros h wid updates s. split; [|split].
  - intro options.
    destruct (updateWebsiteMaster_returns h wid updates options s) as (r & s' & E & F & _).
    exists (request_of h wid updates options). eexists. rewrite E.
    split; [exact F|]. repeat split.
  - destruct (updateWebsiteMaster_returns h wid updates None s) as (r & s' & E & F & _).
    exists (request_of h wid updates None). rewrite E. split; [exact F|reflexivity].
  - intro override.
    destruct (updateWebsiteMaster_returns h wid updates
                (Some {| sendEmailNotification := None; apiUrl := override |}) s)
      as (r & s' & E & F & _).
    eexists. rewrite E. split; [exact F|reflexivity].
Qed.

(** ** A response whose body parses *)

Lemma not_2xx (resp : Response) :
  (status resp < 200 \/ 299 < status resp)%N -> ok resp = false.
Proof.
  unfold ok. intros [L | G].
  - apply andb_false_iff. left. apply N.leb_gt. exact L.
  - apply andb_false_iff. right. apply N.leb_gt. exact G.
Qed.

Lemma is_2xx (resp : Response) :
  (200 <= status resp <= 299)%N -> ok resp = true.
Proof.
  unfold ok. intros [L G]. apply andb_true_iff. split; apply N.leb_le; assumption.
Qed.

Lemma has_field_not_nullish (v : value) (k : string) :
  has_field v k = true -> nullish v = false.
Proof. destruct v; cbn; congruence. Qed.

Lemma truthy_field_not_nullish (v : value) (k : string) :
  truthy (field v k) = true -> nullish v = false.
Proof. destruct v; cbn; congruence. Qed.

(** C3 (as amended). When the body of the response parses to a JSON value
    other than [null] and the status is outside 200..299, the call returns
    the failure variant: its [error] is the body's [error] field when
    there is one and it is truthy, otherwise the text
    ["HTTP <status>: <statusText>"]; its [websiteId] is the identifier
    passed in. *)
Theorem non_2xx_reports_body_error_or_status :
  forall (h : Host) (wid updates : value) (options : option UpdateWebsiteMasterOptions)
         (s : Effects) (resp : Response) (t : string) (data : value),
    network h (request_of h wid updates options) = Returned resp ->
    text resp = Returned t ->
    JSON_parse h t = Returned data ->
    (status resp < 200 \/ 299 < status resp)%N ->
    nullish data = false ->
    fst (updateWebsiteMaster h wid updates options s) =
      Returned {| success := false;
                  message := None;
                  websiteId := Some wid;
                  website := None;
                  error := Some (if truthy (field data "error")
                                 then field data "error"
                                 else VStr ("HTTP " ++ Number_toString (status resp)
                                            ++ ": " ++ statusText resp)) |}.
Proof.
  intros h wid updates options s resp t data Enet Etext Eparse Est Enull.
  rewrite (run_parsed _ _ _ _ _ _ _ _ Enet Etext Eparse Enull).
  rewrite (not_2xx _ Est). reflexivity.
Qed.

(** C3, the scenario of the specification: a 404 whose body is
    [{"error": "not found"}] gives the failure with error ["not found"] and
    the identifier passed in. *)
Lemma not_found_404_reports_not_found :
  fst (updateWebsiteMaster
         (answering not_found_404 [(not_found_text, VObj [("error", VStr "not found")])])
         abc123 some_updates None no_effects)
  = Returned {| success := false; message := None; websiteId := Some abc123;
                website := None; error := Some (VStr "not found") |}.
Proof.
  exact (non_2xx_reports_body_error_or_status
           (answering not_found_404 [(not_found_text, VObj [("error", VStr "not found")])])
           abc123 some_updates None no_effects not_found_404 not_found_text
           (VObj [("error", VStr "not found")])
           eq_refl eq_refl eq_refl (or_intror eq_refl) eq_refl).
Defined.

(** C3, the input on which the claim as worded fails: a 404 whose body is
    [{"error": ""}] has an [error] field, yet the reported error is the
    status text, not the field. *)
Lemma blank_error_field_is_not_reported :
  let data := VObj [("error", VStr "")] in
  let h := answering blank_error_404 [(blank_error_text, data)] in
  network h (request_of h abc123 some_updates None) = Returned blank_error_404
  /\ text blank_error_404 = Returned blank_error_text
  /\ JSON_parse h blank_error_text = Returned data
  /\ ok blank_error_404 = false
  /\ own_property "error" [("error", VStr "")] = Some (VStr "")
  /\ fst (updateWebsiteMaster h abc123 some_updates None no_effects)
     = Returned {| success := false; message := None; websiteId := Some abc123;
                   website := None; error := Some (VStr "HTTP 404: Not Found") |}
  /\ fst (updateWebsiteMaster h abc123 some_updates None no_effects)
     <> Returned {| success := false; message := None; websiteId := Some abc123;
                    website := None; error := Some (VStr "") |}.
Proof.
  cbv zeta. repeat (split; [reflexivity|]).
  vm_compute. discriminate.
Qed.

(** C10. When the status is outside 200..299 and the parsed body has an
    [error] field whose value is falsy (the empty string, [0], [false],
    [null]), the reported error is the text
    ["HTTP <status>: <statusText>"], not the field's value. *)
Theorem falsy_body_error_gives_status_text :
  forall (h : Host) (wid updates : value) (options : option UpdateWebsiteMasterOptions)
         (s : Effects) (resp : Response) (t : string) (data : value),
    network h (request_of h wid updates options) = Returned resp ->
    text resp = Returned t ->
    JSON_parse h t = Returned data ->
    (status resp < 200 \/ 299 < status resp)%N ->
    has_field data "error" = true ->
    truthy (field data "error") = false ->
    fst (updateWebsiteMaster h wid updates options s) =
      Returned {| success := false;
                  message := None;
                  websiteId := Some wid;
                  website := None;
                  error := Some (VStr ("HTTP " ++ Number_toString (status resp)
                                       ++ ": " ++ statusText resp)) |}.
Proof.
  intros h wid updates options s resp t data Enet Etext Eparse Est Ehas Efalsy.
  rewrite (run_parsed _ _ _ _ _ _ _ _ Enet Etext Eparse (has_field_not_nullish _ _ Ehas)).
  rewrite (not_2xx _ Est), Efalsy. reflexivity.
Qed.

(** C10 at a 404 whose body is [{"error": ""}]. *)
Lemma blank_error_404_gives_status_text :
  fst (updateWebsiteMaster
         (answering blank_error_404 [(blank_error_text, VObj [("error", VStr "")])])
         abc123 some_updates None no_effects)
  = Returned {| success := false; message := None; websiteId := Some abc123;
                website := None; error := Some (VStr "HTTP 404: Not Found") |}.
Proof.
  exact (falsy_body_error_gives_status_text
           (answering blank_error_404 [(blank_error_text, VObj [("error", VStr "")])])
           abc123 some_updates None no_effects blank_error_404 blank_error_text
           (VObj [("error", VStr "")])
           eq_refl eq_refl eq_refl (or_intror eq_refl) eq_refl eq_refl).
Defined.

(** C5 (as amended). When the body of the response parses to a JSON value
    other than [null] and the status is in 200..299, the call returns the
    success variant: its [message] is the body's [message] field when
    there is one and it is truthy, otherwise
    ["Website updated successfully"]; its [websiteId] and [website] are
    the body's fields of those names ([undefined] where the body has
    none), not the identifier passed in. *)
Theorem status_2xx_reports_body_fields :
  forall (h : Host) (wid updates : value) (options : option UpdateWebsiteMasterOptions)
         (s : Effects) (resp : Response) (t : string) (data : value),
    network h (request_of h wid updates options) = Returned resp ->
    text resp = Returned t ->
    JSON_parse h t = Returned data ->
    (200 <= status resp <= 299)%N ->
    nullish data = false ->
    fst (updateWebsiteMaster h wid updates options s) =
      Returned {| success := true;
                  message := Some (if truthy (field data "message")
                                   then field data "message"
                                   else VStr "Website updated successfully");
                  websiteId := Some (field data "websiteId");
                  website := Some (field data "website");
                  error := None |}.
Proof.
  intros h wid updates options s resp t data Enet Etext Eparse Est Enull.
  rewrite (run_parsed _ _ _ _ _ _ _ _ Enet Etext Eparse Enull).
  rewrite (is_2xx _ Est). reflexivity.
Qed.

(** C5, the scenario of the specification: a 200 whose body is
    [{"message": "ok", "websiteId": "xyz", "website": {"a":1}}]. *)
Lemma ok_200_reports_body_fields :
  fst (updateWebsiteMaster (answering ok_200 [(ok_text, ok_data)])
         abc123 some_updates None no_effects)
  = Returned {| success := true;
                message := Some (VStr "ok");
                websiteId := Some (VStr "xyz");
                website := Some (VObj [("a", VNum 1%float)]);
                error := None |}.
Proof.
  apply (status_2xx_reports_body_fields (answering ok_200 [(ok_text, ok_data)])
           abc123 some_updates None no_effects ok_200 ok_text ok_data);
    [reflexivity | reflexivity | reflexivity | split; discriminate | reflexivity].
Defined.

(** C5, the input on which the claim as worded fails: a 200 whose body is
    the JSON text [null] parses, yet the call returns the failure variant,
    because reading [message] of [null] throws inside the [try]. *)
Lemma null_body_200_is_a_failure :
  let h := answering null_200 [("null", VNull)] in
  network h (request_of h abc123 some_updates None) = Returned null_200
  /\ text null_200 = Returned "null"
  /\ JSON_parse h "null" = Returned VNull
  /\ ok null_200 = true
  /\ fst (updateWebsiteMaster h abc123 some_updates None no_effects)
     = Returned {| success := false; message := None; websiteId := Some abc123;
                   website := None;
                   error := Some (VStr "Cannot read properties of null (reading 'message')") |}.
Proof. cbv zeta. repeat split; reflexivity. Qed.

(** A 200 whose body is [{"message": ""}] has a [message] field, yet the
    reported message is the default one. *)
Example blank_message_gives_default :
  let data := VObj [("message", VStr "")] in
  let t := "{" ++ quoted "message" ++ ": " ++ quoted "" ++ "}" in
  let resp := {| status := 200; statusText := "OK"; text := Returned t |} in
  fst (updateWebsiteMaster (answering resp [(t, data)]) abc123 some_updates None no_effects)
  = Returned {| success := true;
                message := Some (VStr "Website updated successfully");
                websiteId := Some VUndefined;
                website := Some VUndefined;
                error := None |}.
Proof. reflexivity. Qed.

(** ** Thrown values *)

(** C6. When [fetch] rejects, or the response comes but its body cannot be
    read or does not parse, the thrown value is caught and the call returns
    the failure variant: its [error] is the [message] of the thrown
    [Error], or ["Unknown error occurred"] when what was thrown is not an
    [Error]; its [websiteId] is the identifier passed in. *)
Theorem thrown_value_becomes_failure :
  forall (h : Host) (wid updates : value) (options : option UpdateWebsiteMasterOptions)
         (s : Effects) (e : thrown),
    network h (request_of h wid updates options) = Threw e
    \/ (exists resp,
          network h (request_of h wid updates options) = Returned resp
          /\ (text resp = Threw e
              \/ exists t, text resp = Returned t /\ JSON_parse h t = Threw e)) ->
    fst (updateWebsiteMaster h wid updates options s) =
      Returned {| success := false;
                  message := None;
                  websiteId := Some wid;
                  website := None;
                  error := Some (VStr match e with
                                      | ErrorInstance _ m => m
                                      | ThrownValue _ => "Unknown error occurred"
                                      end) |}.
Proof.
  intros h wid updates options s e [Enet | (resp & Enet & Ejson)].
  - rewrite (run_fetch_throws _ _ _ _ _ e Enet). reflexivity.
  - rewrite (run_json_throws _ _ _ _ _ resp e Enet Ejson). reflexivity.
Qed.

(** C6, the scenario of the specification: [fetch] rejects with an error
    whose message is ["ECONNREFUSED"]. *)
Lemma econnrefused_becomes_failure :
  fst (updateWebsiteMaster
         (scripted None None (Threw (ErrorInstance "Error" "ECONNREFUSED"))
            (Threw (ErrorInstance "Error" "ENOENT")) [] some_payload)
         abc123 some_updates None no_effects)
  = Returned {| success := false; message := None; websiteId := Some abc123;
                website := None; error := Some (VStr "ECONNREFUSED") |}.
Proof.
  exact (thrown_value_becomes_failure
           (scripted None None (Threw (ErrorInstance "Error" "ECONNREFUSED"))
              (Threw (ErrorInstance "Error" "ENOENT")) [] some_payload)
           abc123 some_updates None no_effects
           (ErrorInstance "Error" "ECONNREFUSED") (or_introl eq_refl)).
Defined.

(** A thrown value that is not an [Error] gives the fallback text. *)
Example thrown_string_gives_fallback :
  fst (updateWebsiteMaster
         (scripted None None (Threw (ThrownValue (VStr "offline")))
            (Threw (ErrorInstance "Error" "ENOENT")) [] some_payload)
         abc123 some_updates None no_effects)
  = Returned {| success := false; message := None; websiteId := Some abc123;
                website := None; error := Some (VStr "Unknown error occurred") |}.
Proof. reflexivity. Qed.

(** ** A 500 *)

Lemma status_line_500 (resp : Response) :
  status resp = 500%N ->
  includes "500" ("HTTP " ++ Number_toString (status resp) ++ ": " ++ statusText resp) = true.
Proof. intros ->. reflexivity. Qed.

(** C4 (as amended). A 500 whose body is empty: parsing the empty text
    throws, and the call returns the failure variant whose [error] is the
    message of that parse error and whose [websiteId] is the identifier
    passed in.  A 500 whose body parses to a JSON value other than [null]
    with no truthy [error] field: the call returns the failure variant
    whose [error] is a text that contains ["500"]. *)
Theorem status_500_error_text :
  forall (h : Host) (wid updates : value) (options : option UpdateWebsiteMasterOptions)
         (s : Effects) (resp : Response),
    network h (request_of h wid updates options) = Returned resp ->
    status resp = 500%N ->
    (forall name m : string,
        text resp = Returned "" ->
        JSON_parse h "" = Threw (ErrorInstance name m) ->
        fst (updateWebsiteMaster h wid updates options s) =
          Returned {| success := false; message := None; websiteId := Some wid;
                      website := None; error := Some (VStr m) |})
    /\ (forall (t : string) (data : value),
          text resp = Returned t ->
          JSON_parse h t = Returned data ->
          nullish data = false ->
          truthy (field data "error") = false ->
          exists m : string,
            fst (updateWebsiteMaster h wid updates options s) =
              Returned {| success := false; message := None; websiteId := Some wid;
                          website := None; error := Some (VStr m) |}
            /\ includes "500" m = true).
Proof.
  intros h wid updates options s resp Enet Est. split.
  - intros name m Etext Eparse.
    rewrite (run_json_throws _ _ _ _ _ resp (ErrorInstance name m) Enet).
    + reflexivity.
    + right. exists "". split; assumption.
  - intros t data Etext Eparse Enull Efalsy.
    exists ("HTTP " ++ Number_toString (status resp) ++ ": " ++ statusText resp).
    split; [|apply status_line_500; exact Est].
    rewrite (run_parsed _ _ _ _ _ _ _ _ Enet Etext Eparse Enull).
    assert (O : ok resp = false) by (apply not_2xx; right; rewrite Est; reflexivity).
    rewrite O, Efalsy. reflexivity.
Qed.

(** C4 at a 500 with an empty body, on V8. *)
Lemma empty_500_reports_parse_error :
  fst (updateWebsiteMaster (answering empty_500 []) abc123 some_updates None no_effects)
  = Returned {| success := false; message := None; websiteId := Some abc123;
                website := None; error := Some (VStr "Unexpected end of JSON input") |}.
Proof.
  exact (proj1 (status_500_error_text (answering empty_500 []) abc123 some_updates None
                  no_effects empty_500 eq_refl eq_refl)
           "SyntaxError" "Unexpected end of JSON input" eq_refl eq_refl).
Defined.

(** C4, the input on which the claim as worded fails: a 500 with an empty
    body gives an error text that does not contain ["500"]. *)
Lemma empty_500_error_lacks_500 :
  let h := answering empty_500 [] in
  network h (request_of h abc123 some_updates None) = Returned empty_500
  /\ status empty_500 = 500%N
  /\ text empty_500 = Returned ""
  /\ fst (updateWebsiteMaster h abc123 some_updates None no_effects)
     = Returned {| success := false; message := None; websiteId := Some abc123;
                   website := None; error := Some (VStr "Unexpected end of JSON input") |}
  /\ includes "500" "Unexpected end of JSON input" = false.
Proof. cbv zeta. repeat split; reflexivity. Qed.

(** ** Updating from the file *)

Section FromFile.
Variable h : Host.
Variable path : option string.
Variable options : option UpdateWebsiteMasterOptions.
Variable s : Effects.
Variable fs : FsPromises.
Variables (content : string) (doc : value).

Hypothesis imported : import_fs h = Returned fs.
Hypothesis was_read :
  readFile fs (match path with Some p => p | None => "./src/data/websiteData.json" end)
  = Returned content.
Hypothesis parsed : JSON_parse h content = Returned doc.

(** Once the file is read and parsed, what is left is the read of [_id],
    the test and the delegation, still under the [try]. *)
Lemma from_file_after_parse :
  updateWebsiteMasterFromFile h path options s =
    try_catch
      (bind (get h doc "_id")
         (fun websiteMaster_id =>
            if negb (truthy websiteMaster_id)
            then ret {| success := false; message := None; websiteId := None;
                        website := None; error := Some (VStr missing_id_error) |}
            else updateWebsiteMaster h websiteMaster_id doc
                   (Some match options with
                         | Some o => o
                         | None => {| sendEmailNotification := None; apiUrl := None |}
                         end)))
      (fun error =>
         bind (console_error "❌ Error reading websiteData.json:" error)
           (fun _ =>
              ret {| success := false; message := None; websiteId := None;
                     website := None;
                     error := Some match error with
                                   | ErrorInstance _ m => VStr m
                                   | ThrownValue _ => VStr "Failed to read websiteData.json"
                                   end |}))
      s.
Proof.
  unfold updateWebsiteMasterFromFile, try_catch, bind, lift.
  rewrite imported, was_read, parsed. reflexivity.
Qed.

(** A document whose [_id] is falsy or missing: the fixed failure, and no
    effect at all. *)
Lemma from_file_without_id :
  nullish doc = false ->
  truthy (field doc "_id") = false ->
  updateWebsiteMasterFromFile h path options s =
    (Returned {| success := false; message := None; websiteId := None;
                 website := None; error := Some (VStr missing_id_error) |},
     s).
Proof.
  intros N F. rewrite from_file_after_parse.
  unfold try_catch, bind.
  replace (get h doc "_id" s) with (Returned (field doc "_id"), s)
    by (destruct doc; try discriminate N; reflexivity).
  rewrite F. reflexivity.
Qed.

(** A document whose [_id] is truthy: the call is the call of
    [updateWebsiteMaster] with that [_id] and the whole document. *)
Lemma from_file_with_id :
  truthy (field doc "_id") = true ->
  updateWebsiteMasterFromFile h path options s =
    updateWebsiteMaster h (field doc "_id") doc options s.
Proof.
  intros T. rewrite from_file_after_parse.
  unfold try_catch at 1, bind at 1.
  replace (get h doc "_id" s) with (Returned (field doc "_id"), s)
    by (destruct doc; try discriminate T; reflexivity).
  rewrite T. cbn [negb].
  destruct (updateWebsiteMaster_returns h (field doc "_id") doc
              (Some match options with
                    | Some o => o
                    | None => {| sendEmailNotification := None; apiUrl := None |}
                    end) s) as (r & s' & E & _).
  rewrite E. rewrite <- E. destruct options; reflexivity.
Qed.

End FromFile.

Lemma absent_field_is_falsy (v : value) (k : string) :
  has_field v k = false -> truthy (field v k) = false.
Proof.
  destruct v; cbn; try reflexivity.
  destruct (own_property k props); [discriminate | reflexivity].
Qed.

(** C7 (as amended). When the file is read and its text parses to a JSON
    value other than [null] that has no [_id] field, the call returns the
    failure variant with the fixed message and without a [websiteId], and
    [fetch] is not called: the effects are those from before the call. *)
Theorem document_without_id_fails_without_fetch :
  forall (h : Host) (path : option string) (options : option UpdateWebsiteMasterOptions)
         (s : Effects) (fs : FsPromises) (content : string) (doc : value),
    import_fs h = Returned fs ->
    readFile fs (match path with Some p => p | None => "./src/data/websiteData.json" end)
      = Returned content ->
    JSON_parse h content = Returned doc ->
    nullish doc = false ->
    has_field doc "_id" = false ->
    fst (updateWebsiteMasterFromFile h path options s) =
      Returned {| success := false;
                  message := None;
                  websiteId := None;
                  website := None;
                  error := Some (VStr "websiteData.json does not contain _id field. Make sure the website has been saved to the database first.") |}
    /\ fetch_calls (snd (updateWebsiteMasterFromFile h path options s)) = fetch_calls s
    /\ snd (updateWebsiteMasterFromFile h path options s) = s.
Proof.
  intros h path options s fs content doc Eimp Eread Eparse Enull Ehas.
  rewrite (from_file_without_id h path options s fs content doc Eimp Eread Eparse Enull
             (absent_field_is_falsy _ _ Ehas)).
  repeat split.
Qed.

(** C7 at a file that holds [{"websiteName": "Updated Name"}]. *)
Lemma unsaved_document_fails_without_fetch :
  fst (updateWebsiteMasterFromFile (with_file unsaved_text some_updates) None None no_effects)
  = Returned {| success := false;
                message := None;
                websiteId := None;
                website := None;
                error := Some (VStr "websiteData.json does not contain _id field. Make sure the website has been saved to the database first.") |}
  /\ fetch_calls (snd (updateWebsiteMasterFromFile (with_file unsaved_text some_updates)
                         None None no_effects)) = []
  /\ snd (updateWebsiteMasterFromFile (with_file unsaved_text some_updates)
            None None no_effects) = no_effects.
Proof.
  exact (document_without_id_fails_without_fetch (with_file unsaved_text some_updates)
           None None no_effects {| readFile := fun _ => Returned unsaved_text |}
           unsaved_text some_updates eq_refl eq_refl eq_refl eq_refl eq_refl).
Defined.

(** C7, the input on which the claim as worded fails: a file that holds
    the JSON text [null] is read and parsed and has no [_id] field, yet the
    reported error is the message of the [TypeError] that reading [_id] of
    [null] throws, not the fixed message. *)
Lemma null_document_reports_type_error :
  let h := with_file "null" VNull in
  (exists fs, import_fs h = Returned fs
              /\ readFile fs "./src/data/websiteData.json" = Returned "null")
  /\ JSON_parse h "null" = Returned VNull
  /\ has_field VNull "_id" = false
  /\ fst (updateWebsiteMasterFromFile h None None no_effects)
     = Returned {| success := false; message := None; websiteId := None; website := None;
                   error := Some (VStr "Cannot read properties of null (reading '_id')") |}
  /\ fst (updateWebsiteMasterFromFile h None None no_effects)
     <> Returned {| success := false; message := None; websiteId := None; website := None;
                    error := Some (VStr missing_id_error) |}.
Proof.
  cbv zeta. split; [eexists; split; reflexivity|].
  repeat (split; [reflexivity|]).
  vm_compute. discriminate.
Qed.

(** C8 (as amended). When the file is read and its text parses to a
    document whose [_id] field is truthy, the call is exactly the call of
    [updateWebsiteMaster] with that [_id] as identifier, the whole parsed
    document (its [_id] included) as updates, and the same options: the
    same result and the same effects. *)
Theorem document_with_id_delegates :
  forall (h : Host) (path : option string) (options : option UpdateWebsiteMasterOptions)
         (s : Effects) (fs : FsPromises) (content : string) (doc : value),
    import_fs h = Returned fs ->
    readFile fs (match path with Some p => p | None => "./src/data/websiteData.json" end)
      = Returned content ->
    JSON_parse h content = Returned doc ->
    truthy (field doc "_id") = true ->
    updateWebsiteMasterFromFile h path options s =
      updateWebsiteMaster h (field doc "_id") doc options s.
Proof.
  intros h path options s fs content doc Eimp Eread Eparse Etruthy.
  exact (from_file_with_id h path options s fs content doc Eimp Eread Eparse Etruthy).
Qed.

(** C8, the scenario of the specification: the file holds a document whose
    [_id] is ["abc123"]; [updateWebsiteMaster] receives ["abc123"] and the
    whole document. *)
Lemma saved_document_delegates :
  updateWebsiteMasterFromFile (with_file saved_text saved_doc) None None no_effects
  = updateWebsiteMaster (with_file saved_text saved_doc) (VStr "abc123") saved_doc
      None no_effects.
Proof.
  exact (document_with_id_delegates (with_file saved_text saved_doc) None None no_effects
           {| readFile := fun _ => Returned saved_text |} saved_text saved_doc
           eq_refl eq_refl eq_refl eq_refl).
Defined.

(** C8, the input on which the claim as worded fails: the file holds
    [{"_id": "", "websiteName": "Updated Name"}], a document with an [_id]
    field; the call returns the fixed failure and calls [fetch] not at
    all, where [updateWebsiteMaster] with that [_id] and document calls
    [fetch] once and echoes the [_id]. *)
Lemma blank_id_document_does_not_delegate :
  let h := with_file blank_id_text blank_id_doc in
  JSON_parse h blank_id_text = Returned blank_id_doc
  /\ has_field blank_id_doc "_id" = true
  /\ field blank_id_doc "_id" = VStr ""
  /\ updateWebsiteMasterFromFile h None None no_effects
     = (Returned {| success := false; message := None; websiteId := None; website := None;
                    error := Some (VStr missing_id_error) |},
        no_effects)
  /\ fst (updateWebsiteMaster h (VStr "") blank_id_doc None no_effects)
     = Returned {| success := false; message := None; websiteId := Some (VStr "");
                   website := None; error := Some (VStr "fetch failed") |}
  /\ length (fetch_calls (snd (updateWebsiteMaster h (VStr "") blank_id_doc None no_effects)))
     = 1
  /\ updateWebsiteMasterFromFile h None None no_effects
     <> updateWebsiteMaster h (VStr "") blank_id_doc None no_effects.
Proof.
  cbv zeta. repeat (split; [reflexivity|]).
  vm_compute. discriminate.
Qed.

(** ** Further properties of the two functions *)

(** *** The override and its trailing slash *)

Lemma replace_trailing_slash_app_slash (u : string) :
  replace_trailing_slash (u ++ "/") = u.
Proof.
  induction u as [|c r IH]; [reflexivity|].
  destruct r as [|c' r']; [reflexivity|].
  change (replace_trailing_slash (String c (String c' r') ++ "/"))
    with (String c (replace_trailing_slash (String c' r' ++ "/"))).
  rewrite IH. reflexivity.
Qed.

Lemma replace_trailing_slash_no_slash (u : string) :
  ends_with_slash u = false -> replace_trailing_slash u = u.
Proof.
  rewrite replace_trailing_slash_strips.
  unfold ends_with_slash, strip_trailing_slash. cbv zeta.
  destruct (String.get (String.length u - 1) u) as [c|]; [|reflexivity].
  intros ->. reflexivity.
Qed.

Lemma app_slash_truthy (u : string) : truthy (VStr (u ++ "/")) = true.
Proof. destruct u; reflexivity. Qed.

Lemma nonempty_truthy (u : string) : u <> "" -> truthy (VStr u) = true.
Proof. destruct u; [congruence | reflexivity]. Qed.

(** X1. An [apiUrl] that ends in a slash loses exactly that one slash:
    with [apiUrl = u + "/"] the one request goes to
    [u + "/api/userActions/update-website"], on every host and for every
    [u] (so ["https://x//"] gives ["https://x//api/..."], and ["/"] alone
    gives the relative path). *)
Theorem override_loses_exactly_one_slash :
  forall (h : Host) (wid updates : value) (notify : option bool) (u : string) (s : Effects),
  exists req,
    fetch_calls (snd (updateWebsiteMaster h wid updates
                        (Some {| sendEmailNotification := notify;
                                 apiUrl := Some (u ++ "/") |}) s))
      = (fetch_calls s ++ [req])%list
    /\ url req = u ++ "/api/userActions/update-website".
Proof.
  intros h wid updates notify u s.
  destruct (updateWebsiteMaster_returns h wid updates
              (Some {| sendEmailNotification := notify; apiUrl := Some (u ++ "/") |}) s)
    as (r & s' & E & F & _).
  eexists. rewrite E. split; [exact F|].
  cbn [request_of update_request url apiUrl]. unfold endpoint_for.
  rewrite app_slash_truthy, replace_trailing_slash_app_slash. reflexivity.
Qed.

(** X2. A non-empty [apiUrl] that does not end in a slash is used as it
    is, so it and the same text with one slash added resolve to the same
    endpoint, [u + "/api/userActions/update-website"]. *)
Theorem override_with_or_without_slash :
  forall (h : Host) (wid updates : value) (notify : option bool) (u : string) (s : Effects),
    u <> "" ->
    ends_with_slash u = false ->
    map url (fetch_calls (snd (updateWebsiteMaster h wid updates
                                 (Some {| sendEmailNotification := notify;
                                          apiUrl := Some u |}) s)))
      = (map url (fetch_calls s)
           ++ [(u ++ "/api/userActions/update-website")%string])%list
    /\ map url (fetch_calls (snd (updateWebsiteMaster h wid updates
                                    (Some {| sendEmailNotification := notify;
                                             apiUrl := Some u |}) s)))
       = map url (fetch_calls (snd (updateWebsiteMaster h wid updates
                                      (Some {| sendEmailNotification := notify;
                                               apiUrl := Some (u ++ "/") |}) s))).
Proof.
  intros h wid updates notify u s Hne Hslash.
  destruct (updateWebsiteMaster_returns h wid updates
              (Some {| sendEmailNotification := notify; apiUrl := Some u |}) s)
    as (r & s' & E & F & _).
  destruct (updateWebsiteMaster_returns h wid updates
              (Some {| sendEmailNotification := notify; apiUrl := Some (u ++ "/") |}) s)
    as (r2 & s2 & E2 & F2 & _).
  rewrite E, E2. cbn [snd]. rewrite F, F2, !map_app.
  cbn [map request_of update_request url apiUrl]. unfold endpoint_for.
  rewrite app_slash_truthy, replace_trailing_slash_app_slash.
  rewrite (nonempty_truthy u Hne), (replace_trailing_slash_no_slash u Hslash).
  split; reflexivity.
Qed.

(** X2 at [https://app.example.com]. *)
Lemma app_example_with_or_without_slash :
  map url (fetch_calls (snd (updateWebsiteMaster (answering ok_200 [(ok_text, ok_data)])
                               abc123 some_updates
                               (Some {| sendEmailNotification := None;
                                        apiUrl := Some "https://app.example.com" |})
                               no_effects)))
    = ["https://app.example.com/api/userActions/update-website"]
  /\ map url (fetch_calls (snd (updateWebsiteMaster (answering ok_200 [(ok_text, ok_data)])
                                  abc123 some_updates
                                  (Some {| sendEmailNotification := None;
                                           apiUrl := Some "https://app.example.com" |})
                                  no_effects)))
     = map url (fetch_calls (snd (updateWebsiteMaster (answering ok_200 [(ok_text, ok_data)])
                                    abc123 some_updates
                                    (Some {| sendEmailNotification := None;
                                             apiUrl := Some "https://app.example.com/" |})
                                    no_effects))).
Proof.
  apply (override_with_or_without_slash (answering ok_200 [(ok_text, ok_data)])
           abc123 some_updates None "https://app.example.com" no_effects);
    [discriminate | reflexivity].
Defined.

(** X3. Whatever the override, the browsing context and the configuration,
    the one request goes to a URL that ends in the fixed path
    [/api/userActions/update-website]: no option changes the path. *)
Theorem endpoint_ends_in_fixed_path :
  forall (h : Host) (wid updates : value)
         (options : option UpdateWebsiteMasterOptions) (s : Effects),
  exists req base,
    fetch_calls (snd (updateWebsiteMaster h wid updates options s))
      = (fetch_calls s ++ [req])%list
    /\ url req = base ++ "/api/userActions/update-website".
Proof.
  intros h wid updates options s.
  destruct (updateWebsiteMaster_returns h wid updates options s) as (r & s' & E & F & _).
  exists (request_of h wid updates options). rewrite E. cbn [snd].
  cbn [request_of update_request url]. rewrite endpoint_for_spec.
  unfold spec_endpoint.
  destruct (nonempty_override _) as [u|].
  { exists (strip_trailing_slash u). split; [exact F|reflexivity]. }
  destruct (current_origin h) as [o|].
  { exists o. split; [exact F|reflexivity]. }
  destruct (NEXT_PUBLIC_APP_URL h) as [b|].
  { exists b. split; [exact F|reflexivity]. }
  exists "". split; [exact F|reflexivity].
Qed.

(** *** What a result of [updateWebsiteMaster] looks like *)

Lemma or_truthy (v : value) (m : string) :
  m <> "" -> truthy (if truthy v then v else VStr m) = true.
Proof.
  intros Hm. destruct (truthy v) eqn:T; [exact T | apply nonempty_truthy; exact Hm].
Qed.

(** The whole outcome of a call: the result, the request, the console. *)
Lemma updateWebsiteMaster_outcome (h : Host) (wid updates : value)
    (options : option UpdateWebsiteMasterOptions) (s : Effects) :
  exists r s',
    updateWebsiteMaster h wid updates options s = (Returned r, s')
    /\ fetch_calls s' = (fetch_calls s ++ [request_of h wid updates options])%list
    /\ ((success r = true
         /\ error r = None
         /\ (exists m, message r = Some m /\ truthy m = true)
         /\ (exists i, websiteId r = Some i)
         /\ (exists w, website r = Some w)
         /\ console_errors s' = console_errors s)
        \/ (success r = false
            /\ websiteId r = Some wid
            /\ message r = None
            /\ website r = None
            /\ (console_errors s' = console_errors s
                \/ exists e,
                     console_errors s'
                     = (console_errors s ++ [("❌ Error updating websiteMaster:", e)])%list))).
Proof.
  destruct (network h (request_of h wid updates options)) as [resp|e] eqn:Enet.
  - destruct (text resp) as [t|e] eqn:Etext.
    + destruct (JSON_parse h t) as [data|e] eqn:Eparse.
      * destruct (nullish data) eqn:Enull.
        -- do 2 eexists; split;
             [apply (run_parsed_nullish _ _ _ _ _ _ _ _ Enet Etext Eparse Enull)|].
           split; [reflexivity|]. right. repeat (split; [reflexivity|]).
           right. eexists. reflexivity.
        -- do 2 eexists; split; [apply (run_parsed _ _ _ _ _ _ _ _ Enet Etext Eparse Enull)|].
           split; [reflexivity|]. destruct (ok resp).
           ++ left. repeat (split; [reflexivity|]).
              split; [|repeat split; eexists; reflexivity].
              eexists. split; [reflexivity|]. apply or_truthy. discriminate.
           ++ right. repeat (split; [reflexivity|]). left. reflexivity.
      * do 2 eexists; split.
        { apply (run_json_throws _ _ _ _ _ resp e Enet). right. exists t. split; assumption. }
        split; [reflexivity|]. right. repeat (split; [reflexivity|]).
        right. eexists. reflexivity.
    + do 2 eexists; split.
      { apply (run_json_throws _ _ _ _ _ resp e Enet). left. assumption. }
      split; [reflexivity|]. right. repeat (split; [reflexivity|]).
      right. eexists. reflexivity.
  - do 2 eexists; split; [apply (run_fetch_throws _ _ _ _ _ e Enet)|].
    split; [reflexivity|]. right. repeat (split; [reflexivity|]).
    right. eexists. reflexivity.
Qed.

(** X4. The two shapes of a result of [updateWebsiteMaster].  A success has
    a [message] that is truthy (the body's, or the default text), has the
    keys [websiteId] and [website], and has no [error] key.  A failure, on
    whatever path it arose, has the identifier passed in as [websiteId]
    and has neither a [message] nor a [website] key. *)
Theorem result_shapes :
  forall (h : Host) (wid updates : value)
         (options : option UpdateWebsiteMasterOptions) (s : Effects),
  exists r s',
    updateWebsiteMaster h wid updates options s = (Returned r, s')
    /\ ((success r = true
         /\ error r = None
         /\ (exists m, message r = Some m /\ truthy m = true)
         /\ (exists i, websiteId r = Some i)
         /\ (exists w, website r = Some w))
        \/ (success r = false
            /\ websiteId r = Some wid
            /\ message r = None
            /\ website r = None)).
Proof.
  intros h wid updates options s.
  destruct (updateWebsiteMaster_outcome h wid updates options s)
    as (r & s' & E & _ & [(S & A & B & C & D & _) | (S & A & B & C & _)]);
    exists r, s'; (split; [exact E|]); [left | right]; repeat split; assumption.
Qed.


(** X6. On a status outside 200..299 with a body that parses to a JSON
    value other than [null], the reported [error] is always truthy: never
    [undefined], never the empty string. *)
Theorem non_2xx_error_is_truthy :
  forall (h : Host) (wid updates : value) (options : option UpdateWebsiteMasterOptions)
         (s : Effects) (resp : Response) (t : string) (data : value),
    network h (request_of h wid updates options) = Returned resp ->
    text resp = Returned t ->
    JSON_parse h t = Returned data ->
    (status resp < 200 \/ 299 < status resp)%N ->
    nullish data = false ->
    exists r e,
      fst (updateWebsiteMaster h wid updates options s) = Returned r
      /\ success r = false
      /\ error r = Some e
      /\ truthy e = true.
Proof.
  intros h wid updates options s resp t data Enet Etext Eparse Est Enull.
  rewrite (run_parsed _ _ _ _ _ _ _ _ Enet Etext Eparse Enull).
  rewrite (not_2xx _ Est). do 2 eexists. cbn [fst].
  split; [reflexivity|]. split; [reflexivity|]. split; [reflexivity|].
  apply or_truthy. unfold status_line. discriminate.
Qed.

(** X6 at a 404 whose body is [{"error": ""}]. *)
Lemma blank_error_404_error_is_truthy :
  exists r e,
    fst (updateWebsiteMaster
           (answering blank_error_404 [(blank_error_text, VObj [("error", VStr "")])])
           abc123 some_updates None no_effects) = Returned r
    /\ success r = false
    /\ error r = Some e
    /\ truthy e = true.
Proof.
  apply (non_2xx_error_is_truthy
           (answering blank_error_404 [(blank_error_text, VObj [("error", VStr "")])])
           abc123 some_updates None no_effects blank_error_404 blank_error_text
           (VObj [("error", VStr "")]));
    [reflexivity | reflexivity | reflexivity | right; reflexivity | reflexivity].
Defined.

(** A thrown [Error] with an empty message, by contrast, gives the empty
    string as [error]. *)
Example empty_message_gives_empty_error :
  fst (updateWebsiteMaster
         (scripted None None (Threw (ErrorInstance "Error" ""))
            (Threw (ErrorInstance "Error" "ENOENT")) [] some_payload)
         abc123 some_updates None no_effects)
  = Returned {| success := false; message := None; websiteId := Some abc123;
                website := None; error := Some (VStr "") |}.
Proof. reflexivity. Qed.

(** *** The file stage of [updateWebsiteMasterFromFile] *)

(** The import, the read or the parse throws. *)
Lemma from_file_throws (h : Host) (path : option string)
    (options : option UpdateWebsiteMasterOptions) (s : Effects) (e : thrown) :
  import_fs h = Threw e
  \/ (exists fs,
        import_fs h = Returned fs
        /\ (readFile fs (match path with
                         | Some p => p
                         | None => "./src/data/websiteData.json"
                         end) = Threw e
            \/ exists content,
                 readFile fs (match path with
                              | Some p => p
                              | None => "./src/data/websiteData.json"
                              end) = Returned content
                 /\ JSON_parse h content = Threw e)) ->
  updateWebsiteMasterFromFile h path options s =
    (Returned {| success := false; message := None; websiteId := None; website := None;
                 error := Some (VStr (caught_message e "Failed to read websiteData.json")) |},
     logged "❌ Error reading websiteData.json:" e s).
Proof.
  unfold updateWebsiteMasterFromFile, try_catch, bind, lift, console_error, ret, logged.
  intros [-> | (fs & -> & [-> | (content & -> & ->)])]; destruct e; reflexivity.
Qed.

(** The text parses to [null]: the read of [_id] throws. *)
Lemma from_file_nullish (h : Host) (path : option string)
    (options : option UpdateWebsiteMasterOptions) (s : Effects)
    (fs : FsPromises) (content : string) (doc : value) :
  import_fs h = Returned fs ->
  readFile fs (match path with Some p => p | None => "./src/data/websiteData.json" end)
    = Returned content ->
  JSON_parse h content = Returned doc ->
  nullish doc = true ->
  updateWebsiteMasterFromFile h path options s =
    (Returned {| success := false; message := None; websiteId := None; website := None;
                 error := Some (VStr (TypeError_message h doc "_id")) |},
     logged "❌ Error reading websiteData.json:"
       (ErrorInstance "TypeError" (TypeError_message h doc "_id")) s).
Proof.
  intros Eimp Eread Eparse Enull.
  rewrite (from_file_after_parse h path options s fs content doc Eimp Eread Eparse).
  destruct doc; try discriminate Enull; reflexivity.
Qed.

(** X7. When the import of [fs/promises], the read of the file or the parse
    of its text throws, [updateWebsiteMasterFromFile] returns a failure
    whose [error] is the message of the thrown [Error], or
    ["Failed to read websiteData.json"] when what was thrown is not an
    [Error]; the result has no [websiteId]; [fetch] is not called; and
    [console.error] is called once, with the thrown value. *)
Theorem file_stage_throw_becomes_failure :
  forall (h : Host) (path : option string) (options : option UpdateWebsiteMasterOptions)
         (s : Effects) (e : thrown),
    import_fs h = Threw e
    \/ (exists fs,
          import_fs h = Returned fs
          /\ (readFile fs (match path with
                           | Some p => p
                           | None => "./src/data/websiteData.json"
                           end) = Threw e
              \/ exists content,
                   readFile fs (match path with
                                | Some p => p
                                | None => "./src/data/websiteData.json"
                                end) = Returned content
                   /\ JSON_parse h content = Threw e)) ->
    fst (updateWebsiteMasterFromFile h path options s) =
      Returned {| success := false;
                  message := None;
                  websiteId := None;
                  website := None;
                  error := Some (VStr match e with
                                      | ErrorInstance _ m => m
                                      | ThrownValue _ => "Failed to read websiteData.json"
                                      end) |}
    /\ fetch_calls (snd (updateWebsiteMasterFromFile h path options s)) = fetch_calls s
    /\ console_errors (snd (updateWebsiteMasterFromFile h path options s))
       = (console_errors s ++ [("❌ Error reading websiteData.json:", e)])%list.
Proof.
  intros h path options s e H.
  rewrite (from_file_throws h path options s e H). repeat split.
Qed.

(** X7 at a host where the file does not exist. *)
Lemma missing_file_becomes_failure :
  fst (updateWebsiteMasterFromFile (answering ok_200 [(ok_text, ok_data)])
         None None no_effects)
  = Returned {| success := false; message := None; websiteId := None; website := None;
                error := Some (VStr "ENOENT") |}
  /\ fetch_calls (snd (updateWebsiteMasterFromFile (answering ok_200 [(ok_text, ok_data)])
                         None None no_effects)) = []
  /\ console_errors (snd (updateWebsiteMasterFromFile (answering ok_200 [(ok_text, ok_data)])
                            None None no_effects))
     = [("❌ Error reading websiteData.json:", ErrorInstance "Error" "ENOENT")].
Proof.
  apply (file_stage_throw_becomes_failure (answering ok_200 [(ok_text, ok_data)])
           None None no_effects (ErrorInstance "Error" "ENOENT")).
  right. eexists. split; [reflexivity|]. left. reflexivity.
Defined.

(** X8. When the file is read and its text parses to [null], reading [_id]
    throws a [TypeError] inside the [try]: the call returns a failure
    whose [error] is that [TypeError]'s message, without a [websiteId],
    [fetch] is not called, and the [TypeError] is logged once. *)
Theorem null_document_becomes_failure :
  forall (h : Host) (path : option string) (options : option UpdateWebsiteMasterOptions)
         (s : Effects) (fs : FsPromises) (content : string),
    import_fs h = Returned fs ->
    readFile fs (match path with Some p => p | None => "./src/data/websiteData.json" end)
      = Returned content ->
    JSON_parse h content = Returned VNull ->
    fst (updateWebsiteMasterFromFile h path options s) =
      Returned {| success := false;
                  message := None;
                  websiteId := None;
                  website := None;
                  error := Some (VStr (TypeError_message h VNull "_id")) |}
    /\ fetch_calls (snd (updateWebsiteMasterFromFile h path options s)) = fetch_calls s
    /\ console_errors (snd (updateWebsiteMasterFromFile h path options s))
       = (console_errors s
            ++ [("❌ Error reading websiteData.json:",
                 ErrorInstance "TypeError" (TypeError_message h VNull "_id"))])%list.
Proof.
  intros h path options s fs content Eimp Eread Eparse.
  rewrite (from_file_nullish h path options s fs content VNull Eimp Eread Eparse eq_refl).
  repeat split.
Qed.

(** X8 at a file that holds the text [null]. *)
Lemma null_file_becomes_failure :
  fst (updateWebsiteMasterFromFile (with_file "null" VNull) None None no_effects)
  = Returned {| success := false; message := None; websiteId := None; website := None;
                error := Some (VStr "Cannot read properties of null (reading '_id')") |}
  /\ fetch_calls (snd (updateWebsiteMasterFromFile (with_file "null" VNull)
                         None None no_effects)) = []
  /\ console_errors (snd (updateWebsiteMasterFromFile (with_file "null" VNull)
                            None None no_effects))
     = [("❌ Error reading websiteData.json:",
         ErrorInstance "TypeError" "Cannot read properties of null (reading '_id')")].
Proof.
  exact (null_document_becomes_failure (with_file "null" VNull) None None no_effects
           {| readFile := fun _ => Returned "null" |} "null" eq_refl eq_refl eq_refl).
Defined.

(** *** The delegation *)

(** X9. [updateWebsiteMasterFromFile] calls [fetch] at most once, and the
    result tells which: it has no [websiteId] key exactly when no request
    was sent (the file stage failed, or the [_id] was missing or falsy),
    and has one when the one request was sent. *)
Theorem from_file_sends_at_most_one_request :
  forall (h : Host) (path : option string)
         (options : option UpdateWebsiteMasterOptions) (s : Effects),
  exists r s',
    updateWebsiteMasterFromFile h path options s = (Returned r, s')
    /\ ((websiteId r = None /\ success r = false /\ fetch_calls s' = fetch_calls s)
        \/ (exists i req,
              websiteId r = Some i
              /\ fetch_calls s' = (fetch_calls s ++ [req])%list)).
Proof.
  intros h path options s.
  destruct (import_fs h) as [fs|e] eqn:Eimp.
  2:{ do 2 eexists. split; [apply (from_file_throws h path options s e); left; exact Eimp|].
      left. repeat split. }
  destruct (readFile fs (match path with
                         | Some p => p
                         | None => "./src/data/websiteData.json"
                         end)) as [content|e] eqn:Eread.
  2:{ do 2 eexists. split.
      { apply (from_file_throws h path options s e). right. exists fs.
        split; [exact Eimp|]. left. exact Eread. }
      left. repeat split. }
  destruct (JSON_parse h content) as [doc|e] eqn:Eparse.
  2:{ do 2 eexists. split.
      { apply (from_file_throws h path options s e). right. exists fs.
        split; [exact Eimp|]. right. exists content. split; assumption. }
      left. repeat split. }
  destruct (nullish doc) eqn:Enull.
  { do 2 eexists.
    split; [apply (from_file_nullish h path options s fs content doc Eimp Eread Eparse Enull)|].
    left. repeat split. }
  destruct (truthy (field doc "_id")) eqn:Etruthy.
  - rewrite (from_file_with_id h path options s fs content doc Eimp Eread Eparse Etruthy).
    destruct (updateWebsiteMaster_outcome h (field doc "_id") doc options s)
      as (r & s' & E & F & V).
    exists r, s'. split; [exact E|]. right.
    destruct V as [(_ & _ & _ & (i & I) & _) | (_ & I & _)].
    + exists i. eexists. split; [exact I | exact F].
    + eexists. eexists. split; [exact I | exact F].
  - do 2 eexists. split.
    { apply (from_file_without_id h path options s fs content doc Eimp Eread Eparse
               Enull Etruthy). }
    left. repeat split.
Qed.

(** X10. When the document has a truthy [_id] and [fetch] then rejects,
    the failure is reported by [updateWebsiteMaster]'s own [catch]
    clause, not by the one around the file stage: the [error] is the
    thrown [Error]'s message or ["Unknown error occurred"], the result
    echoes the document's [_id], and [console.error] is called once, with
    the label of [updateWebsiteMaster]. *)
Theorem from_file_network_failure_is_reported_once :
  forall (h : Host) (path : option string) (options : option UpdateWebsiteMasterOptions)
         (s : Effects) (fs : FsPromises) (content : string) (doc : value) (e : thrown),
    import_fs h = Returned fs ->
    readFile fs (match path with Some p => p | None => "./src/data/websiteData.json" end)
      = Returned content ->
    JSON_parse h content = Returned doc ->
    truthy (field doc "_id") = true ->
    network h (request_of h (field doc "_id") doc options) = Threw e ->
    fst (updateWebsiteMasterFromFile h path options s) =
      Returned {| success := false;
                  message := None;
                  websiteId := Some (field doc "_id");
                  website := None;
                  error := Some (VStr match e with
                                      | ErrorInstance _ m => m
                                      | ThrownValue _ => "Unknown error occurred"
                                      end) |}
    /\ console_errors (snd (updateWebsiteMasterFromFile h path options s))
       = (console_errors s ++ [("❌ Error updating websiteMaster:", e)])%list.
Proof.
  intros h path options s fs content doc e Eimp Eread Eparse Etruthy Enet.
  rewrite (from_file_with_id h path options s fs content doc Eimp Eread Eparse Etruthy).
  rewrite (run_fetch_throws _ _ _ _ _ e Enet). split; reflexivity.
Qed.

(** X10 at a saved document and a network that refuses the connection. *)
Lemma saved_document_network_failure :
  fst (updateWebsiteMasterFromFile (with_file saved_text saved_doc) None None no_effects)
  = Returned {| success := false; message := None; websiteId := Some (VStr "abc123");
                website := None; error := Some (VStr "fetch failed") |}
  /\ console_errors (snd (updateWebsiteMasterFromFile (with_file saved_text saved_doc)
                            None None no_effects))
     = [("❌ Error updating websiteMaster:", ErrorInstance "TypeError" "fetch failed")].
Proof.
  exact (from_file_network_failure_is_reported_once (with_file saved_text saved_doc)
           None None no_effects {| readFile := fun _ => Returned saved_text |}
           saved_text saved_doc (ErrorInstance "TypeError" "fetch failed")
           eq_refl eq_refl eq_refl eq_refl eq_refl).
Defined.

(** X11. When the document has a truthy [_id], the one request
    [updateWebsiteMasterFromFile] sends is a PUT to the resolved endpoint
    whose body is the JSON text of
    [{websiteId: doc._id, updates: doc, sendEmailNotification}]: the
    whole document goes out as the updates, its [_id] included, and the
    notification flag is the caller's, [true] when not set. *)
Theorem from_file_sends_whole_document :
  forall (h : Host) (path : option string) (options : option UpdateWebsiteMasterOptions)
         (s : Effects) (fs : FsPromises) (content : string) (doc : value),
    import_fs h = Returned fs ->
    readFile fs (match path with Some p => p | None => "./src/data/websiteData.json" end)
      = Returned content ->
    JSON_parse h content = Returned doc ->
    truthy (field doc "_id") = true ->
    fetch_calls (snd (updateWebsiteMasterFromFile h path options s))
    = (fetch_calls s
         ++ [{| url := endpoint_for h (match options with
                                       | Some o => apiUrl o
                                       | None => None
                                       end);
                method := "PUT";
                headers := [("Content-Type", "application/json")];
                body := JSON_stringify h
                          (VObj [("websiteId", field doc "_id");
                                 ("updates", doc);
                                 ("sendEmailNotification",
                                  VBool match options with
                                        | Some o => match sendEmailNotification o with
                                                    | Some b => b
                                                    | None => true
                                                    end
                                        | None => true
                                        end)]) |}])%list.
Proof.
  intros h path options s fs content doc Eimp Eread Eparse Etruthy.
  rewrite (from_file_with_id h path options s fs content doc Eimp Eread Eparse Etruthy).
  destruct (updateWebsiteMaster_returns h (field doc "_id") doc options s)
    as (r & s' & E & F & _).
  rewrite E. exact F.
Qed.

(** X11 at a saved document: the body is the text of the object whose
    [updates] is the whole document. *)
Lemma saved_document_is_sent_whole :
  fetch_calls (snd (updateWebsiteMasterFromFile (with_file saved_text saved_doc)
                      None None no_effects))
  = [{| url := "/api/userActions/update-website";
        method := "PUT";
        headers := [("Content-Type", "application/json")];
        body := JSON_stringify (with_file saved_text saved_doc)
                  (VObj [("websiteId", VStr "abc123");
                         ("updates", saved_doc);
                         ("sendEmailNotification", VBool true)]) |}].
Proof.
  exact (from_file_sends_whole_document (with_file saved_text saved_doc) None None no_effects
           {| readFile := fun _ => Returned saved_text |} saved_text saved_doc
           eq_refl eq_refl eq_refl eq_refl).
Defined.
